(** * PagerDuty hooks: [EventsAPiV2Client] and [ApiClient]

    A shallow embedding of the two hook classes of
    [airflow/providers/pagerduty/hooks] and the properties their
    specification states about them.

    The hooks are thin Python classes: nearly every statement is an
    attribute access, a call, or a [raise].  What the classes do is
    therefore decided by Python's object protocol (where an attribute is
    found, how arguments are bound to parameters, where a free name is
    looked up), so the development starts with a small model of that
    protocol ([Module Py]) and then transcribes each method statement by
    statement. *)

From Stdlib Require Import String List ZArith QArith.
From stdpp Require Import base gmap strings list fin_maps.

Set Warnings "-register-all".
Local Open Scope string_scope.
Local Open Scope list_scope.

(** ** Python values, exceptions and the object protocol *)

Module Py.

(** Values the hooks handle.  [VSelf] is the hook instance the world holds;
    [VMethod n] is the function the class binds to [n], bound to that
    instance; [VExt i] is an object of the environment (a module, a class or
    an object of the pagerduty library, a builtin, the object a default in
    a parameter list was evaluated to) that the hooks only pass around,
    read attributes of, or call. *)
Inductive value : Type :=
| VNone
| VBool (b : bool)
| VInt (z : Z)
| VFloat (q : Q)
| VStr (s : string)
| VList (items : list value)
| VDict (entries : list (string * value))
| VSelf
| VMethod (name : string)
| VExt (id : string).

Inductive type_error : Type :=
| NotCallable (v : value)
| NotSubscriptable (v : value)
| BadIndex (container index : value)
| Unhashable (v : value)
| BadArguments (function : string)
| NotAnExceptionClass (v : value).

(** [AirflowException msg cause]: [cause] is what [raise ... from e]
    records.  [LibraryError cls msg] is an exception the environment
    raises: an instance of its class [cls], whose [str] is [msg]. *)
Inductive exn : Type :=
| AirflowException (msg : string) (cause : option exn)
| LibraryError (cls : string) (msg : string)
| AttributeError (obj : value) (attr : string)
| NameError (name : string)
| TypeError (why : type_error)
| KeyError (key : value)
| IndexError (container : value).

Inductive result (A : Type) : Type :=
| Ok (a : A)
| Raise (e : exn).
Arguments Ok {A} a.
Arguments Raise {A} e.

(** One call into the environment. *)
Record ext_call_record : Type := ExtCall {
  callee : string;
  positional : list value;
  keywords : list (string * value)
}.

(** The instance's [__dict__] and the calls made into the environment so
    far, oldest first. *)
Record world : Type := World {
  self_dict : gmap string value;
  calls : list ext_call_record
}.

(** The environment: what reading an attribute of an external object gives,
    what calling one returns (it may depend on the calls made before),
    whether an exception is an instance of one of its classes, and how
    Python prints the values and exceptions whose [str] the model does not
    spell out. *)
Class Environment : Type := {
  ext_getattr : string -> string -> result value;
  ext_call : list ext_call_record -> ext_call_record -> result value;
  ext_isinstance : exn -> string -> bool;
  ext_str : value -> string;
  ext_exn_str : exn -> string
}.

(** Computations: a result or an exception, and the world after. *)
Definition M (A : Type) : Type := world -> result A * world.

Definition ret {A} (a : A) : M A := fun w => (Ok a, w).

Definition raise {A} (e : exn) : M A := fun w => (Raise e, w).

Definition bind {A B} (c : M A) (k : A -> M B) : M B :=
  fun w => match c w with
           | (Ok a, w') => k a w'
           | (Raise e, w') => (Raise e, w')
           end.

Definition lift {A} (r : result A) : M A := fun w => (r, w).

#[global] Instance M_ret : MRet M := @ret.
#[global] Instance M_bind : MBind M := fun A B k c => bind c k.

(** [try: body except clause as e: handler].  When the body raises,
    Python evaluates the expression of the clause, and only then decides
    whether the exception is an instance of the class it names; an
    exception raised while evaluating the clause takes the place of the one
    the body raised. *)
Definition try_except `{Environment} {A}
    (body : M A) (clause : M value) (handler : exn -> M A) : M A :=
  fun w =>
    match body w with
    | (Raise e, w1) =>
        match clause w1 with
        | (Ok (VExt cls), w2) =>
            if ext_isinstance e cls then handler e w2 else (Raise e, w2)
        | (Ok other, w2) => (Raise (TypeError (NotAnExceptionClass other)), w2)
        | (Raise e', w2) => (Raise e', w2)
        end
    | returned => returned
    end.

(** [str(v)], as an f-string field formats it. *)
Definition py_str `{Environment} (v : value) : string :=
  match v with
  | VStr s => s
  | VNone => "None"
  | VBool true => "True"
  | VBool false => "False"
  | other => ext_str other
  end.

(** [str(e)] for an exception. *)
Definition exn_str `{Environment} (e : exn) : string :=
  match e with
  | AirflowException msg _ => msg
  | LibraryError _ msg => msg
  | other => ext_exn_str other
  end.

Fixpoint assoc {A} (k : string) (l : list (string * A)) : option A :=
  match l with
  | [] => None
  | (k', a) :: rest => if String.eqb k k' then Some a else assoc k rest
  end.

(** [items[i]] for an integer [i]: negative indices count from the end. *)
Definition index_list {A} (items : list A) (i : Z) : option A :=
  let n := Z.of_nat (List.length items) in
  let j := if (i <? 0)%Z then (i + n)%Z else i in
  if ((0 <=? j) && (j <? n))%Z then nth_error items (Z.to_nat j) else None.

(** An [int] index ([bool] is a subclass of [int]). *)
Definition as_index (index : value) : Z :=
  match index with
  | VInt i => i
  | VBool b => Z.b2z b
  | _ => 0
  end.

(** [container[index]]. *)
Definition subscript (container index : value) : result value :=
  match container, index with
  | VDict entries, VStr k =>
      match assoc k entries with
      | Some v => Ok v
      | None => Raise (KeyError index)
      end
  | VDict _, (VList _ | VDict _) => Raise (TypeError (Unhashable index))
  | VDict _, _ => Raise (KeyError index)
  | VList items, (VInt _ | VBool _) =>
      match index_list items (as_index index) with
      | Some v => Ok v
      | None => Raise (IndexError container)
      end
  | VStr s, (VInt _ | VBool _) =>
      match index_list (list_ascii_of_string s) (as_index index) with
      | Some c => Ok (VStr (String c EmptyString))
      | None => Raise (IndexError container)
      end
  | (VList _ | VStr _), _ => Raise (TypeError (BadIndex container index))
  | _, _ => Raise (TypeError (NotSubscriptable container))
  end.

(** *** Classes, attribute lookup and calls *)

(** What a function receives: the positional and the keyword arguments of
    the call. *)
Definition callable : Type := list value -> list (string * value) -> M value.

(** What the body of a [class] statement binds a name to: a [def], a
    [def] under [@property], or the value of an assignment. *)
Inductive kind : Type :=
| KFunction
| KProperty
| KAttribute (v : value).

Definition is_def (k : kind) : bool :=
  match k with
  | KFunction | KProperty => true
  | KAttribute _ => false
  end.

(** A class: the names its body binds ([shape], in source order) and the
    functions behind the [def]s.  The hooks name no base class, so the only
    other place an attribute of an instance can come from is [object]. *)
Record class_def : Type := Class_ {
  shape : list (string * kind);
  functions : list (string * callable)
}.

(** The function the class binds to [name], applied. *)
Definition apply_function (cls : class_def) (name : string)
    (pos : list value) (kw : list (string * value)) : M value :=
  match assoc name (functions cls) with
  | Some body => body pos kw
  | None => raise (TypeError (NotCallable (VMethod name)))
  end.

(** [obj.name].  On the instance: a property of the class first, then the
    instance's [__dict__], then the class; [AttributeError] otherwise.  A
    function found in the class comes back bound to the instance.  The
    builtin values carry none of the attribute names the hooks read
    ([_session], [integration_key], [get_connection], [get_password],
    [prepare_payload], [post_event], [acknowledge_event], [resolve_event],
    [send_event], [request], [api_key], [auth_header], [headers]). *)
Definition getattr `{Environment} (cls : class_def) (obj : value) (name : string) : M value :=
  match obj with
  | VSelf =>
      match assoc name (shape cls) with
      | Some KProperty => apply_function cls name [VSelf] []
      | in_class =>
          fun w =>
            match self_dict w !! name with
            | Some v => (Ok v, w)
            | None =>
                match in_class with
                | Some KFunction => (Ok (VMethod name), w)
                | Some (KAttribute v) => (Ok v, w)
                | _ => (Raise (AttributeError VSelf name), w)
                end
            end
      end
  | VExt id => lift (ext_getattr id name)
  | _ => raise (AttributeError obj name)
  end.

(** [obj.name = v]: the hooks assign attributes of [self] only. *)
Definition setattr (cls : class_def) (obj : value) (name : string) (v : value) : M unit :=
  match obj with
  | VSelf =>
      match assoc name (shape cls) with
      | Some KProperty => raise (AttributeError VSelf name)
      | _ => fun w => (Ok tt, World (<[name := v]> (self_dict w)) (calls w))
      end
  | _ => raise (AttributeError obj name)
  end.

(** Calling [f] with positional arguments [pos] and keywords [kw].  A bound
    method runs the class's function with the instance put first; a call
    into the environment is recorded. *)
Definition call `{Environment} (cls : class_def) (f : value)
    (pos : list value) (kw : list (string * value)) : M value :=
  match f with
  | VMethod name => apply_function cls name (VSelf :: pos) kw
  | VExt id =>
      fun w =>
        let c := ExtCall id pos kw in
        (ext_call (calls w) c, World (self_dict w) (calls w ++ [c]))
  | _ => raise (TypeError (NotCallable f))
  end.

(** [object.__init__], where [super().__init__()] of a class without bases
    ends up. *)
Definition object_init : M unit := ret tt.

(** *** Binding arguments to parameters *)

(** A [def]'s parameter list: the parameters with their defaults, and
    whether a [**kwargs] collects the other keywords. *)
Record signature : Type := Signature {
  fname : string;
  params : list (string * option value);
  var_keywords : bool
}.

Definition mem (k : string) (l : list string) : bool := existsb (String.eqb k) l.

Fixpoint distinct (l : list string) : bool :=
  match l with
  | [] => true
  | k :: rest => negb (mem k rest) && distinct rest
  end.

(** Positional arguments fill the parameters from the left; what comes
    back is the bound part and the parameters still open. *)
Fixpoint bind_positional (ps : list (string * option value)) (pos : list value)
    : option (list (string * value) * list (string * option value)) :=
  match pos, ps with
  | [], _ => Some ([], ps)
  | v :: pos', (p, _) :: ps' =>
      match bind_positional ps' pos' with
      | Some (bound, open) => Some ((p, v) :: bound, open)
      | None => None
      end
  | _ :: _, [] => None
  end.

(** The open parameters take their keyword, else their default. *)
Fixpoint bind_keywords (open : list (string * option value)) (kw : list (string * value))
    : option (list (string * value)) :=
  match open with
  | [] => Some []
  | (p, default) :: open' =>
      match (match assoc p kw with Some v => Some v | None => default end) with
      | Some v =>
          match bind_keywords open' kw with
          | Some bound => Some ((p, v) :: bound)
          | None => None
          end
      | None => None
      end
  end.

(** The parameters bound, in the order of the signature, and the keywords
    left for [**kwargs].  Every way a call can fail to match the signature
    is a [TypeError]. *)
Definition bind_args (sg : signature) (pos : list value) (kw : list (string * value))
    : result (list (string * value) * list (string * value)) :=
  let bad := Raise (TypeError (BadArguments (fname sg))) in
  match bind_positional (params sg) pos with
  | None => bad
  | Some (bound, open) =>
      let extra := filter (fun kv => negb (mem (fst kv) (map fst open))) kw in
      if negb (distinct (map fst kw)) then bad
      else if existsb (fun k => mem k (map fst bound)) (map fst kw) then bad
      else if negb (var_keywords sg) && negb (Nat.eqb (List.length extra) 0) then bad
      else match bind_keywords open kw with
           | Some rest => Ok (bound ++ rest, extra)
           | None => bad
           end
  end.

(** The value a bound parameter holds. *)
Definition arg (env : list (string * value)) (name : string) : value :=
  default VNone (assoc name env).

(** A [def]: the call's arguments are bound to the parameters, then the
    body runs on them. *)
Definition def_ (sg : signature)
    (body : list (string * value) -> list (string * value) -> M value) : callable :=
  fun pos kw =>
    match bind_args sg pos kw with
    | Ok (env, extra) => body env extra
    | Raise e => raise e
    end.

(** *** Free names *)

(** The names of the [builtins] module. *)
Definition builtins : list string :=
  [ "abs"; "aiter"; "all"; "anext"; "any"; "ascii"; "bin"; "bool";
    "breakpoint"; "bytearray"; "bytes"; "callable"; "chr"; "classmethod";
    "compile"; "complex"; "copyright"; "credits"; "delattr"; "dict"; "dir";
    "divmod"; "enumerate"; "eval"; "exec"; "exit"; "filter"; "float";
    "format"; "frozenset"; "getattr"; "globals"; "hasattr"; "hash"; "help";
    "hex"; "id"; "input"; "int"; "isinstance"; "issubclass"; "iter"; "len";
    "license"; "list"; "locals"; "map"; "max"; "memoryview"; "min"; "next";
    "object"; "oct"; "open"; "ord"; "pow"; "print"; "property"; "quit";
    "range"; "repr"; "reversed"; "round"; "set"; "setattr"; "slice";
    "sorted"; "staticmethod"; "str"; "sum"; "super"; "tuple"; "type";
    "vars"; "zip"; "__import__"; "__build_class__"; "__debug__"; "__doc__";
    "__loader__"; "__name__"; "__package__"; "__spec__";
    "None"; "True"; "False"; "Ellipsis"; "NotImplemented";
    "BaseException"; "BaseExceptionGroup"; "Exception"; "ExceptionGroup";
    "GeneratorExit"; "KeyboardInterrupt"; "SystemExit"; "ArithmeticError";
    "AssertionError"; "AttributeError"; "BlockingIOError";
    "BrokenPipeError"; "BufferError"; "BytesWarning";
    "ChildProcessError"; "ConnectionAbortedError"; "ConnectionError";
    "ConnectionRefusedError"; "ConnectionResetError"; "DeprecationWarning";
    "EOFError"; "EncodingWarning"; "EnvironmentError"; "FileExistsError";
    "FileNotFoundError"; "FloatingPointError"; "FutureWarning"; "IOError";
    "ImportError"; "ImportWarning"; "IndentationError"; "IndexError";
    "InterruptedError"; "IsADirectoryError"; "KeyError"; "LookupError";
    "MemoryError"; "ModuleNotFoundError"; "NameError";
    "NotADirectoryError"; "NotImplementedError"; "OSError";
    "OverflowError"; "PendingDeprecationWarning"; "PermissionError";
    "ProcessLookupError"; "RecursionError"; "ReferenceError";
    "ResourceWarning"; "RuntimeError"; "RuntimeWarning";
    "StopAsyncIteration"; "StopIteration"; "SyntaxError"; "SyntaxWarning";
    "SystemError"; "TabError"; "TimeoutError"; "TypeError";
    "UnboundLocalError"; "UnicodeDecodeError"; "UnicodeEncodeError";
    "UnicodeError"; "UnicodeTranslateError"; "UnicodeWarning";
    "UserWarning"; "ValueError"; "Warning"; "ZeroDivisionError" ].

(** A name that is no local of the function: the module's globals, then
    the builtins, else [NameError]. *)
Definition load_global (module_globals : list string) (name : string) : M value :=
  if mem name module_globals || mem name builtins
  then ret (VExt name)
  else raise (NameError name).

Definition is_none (v : value) : bool :=
  match v with
  | VNone => true
  | _ => false
  end.

End Py.

(** ** [hooks/APiV2Client.py]: class [EventsAPiV2Client] *)

Module EventsAPiV2Client.
Import Py.

Section WithEnvironment.
Context `{Environment}.

(** The [class] statement names no base, and its body is nine [def]s. *)
Definition class_shape : list (string * kind) :=
  [ ("__init__", KFunction);
    ("acknowledge_event", KFunction);
    ("post_event", KFunction);
    ("prepare_headers", KFunction);
    ("resolve_event", KFunction);
    ("send_change_event", KFunction);
    ("send_event", KFunction);
    ("submit_event", KFunction);
    ("trigger_event", KFunction) ].

(** The functions are defined bottom-up; the class is the last of three
    stages.  [events_api_sites_agree] below checks that every method the
    code reaches through [self] is found at its stage as it is in the
    finished class. *)
Definition stage0 : class_def := Class_ class_shape [].

(** The names the module's top-level statements bind ([datetime] is
    imported under [TYPE_CHECKING] only). *)
Definition module_globals : list string :=
  [ "__name__"; "__doc__"; "__package__"; "__loader__"; "__spec__";
    "__file__"; "__cached__"; "__builtins__";
    "annotations"; "TYPE_CHECKING"; "Any"; "pagerduty"; "AirflowException";
    "BaseHook"; "EventsAPiV2Client" ].

(** The expression of the four [except] clauses:
    [pagerduty.PagerDutyError]. *)
Definition pagerduty_PagerDutyError : M value :=
  pagerduty ← load_global module_globals "pagerduty";
  getattr stage0 pagerduty "PagerDutyError".

(** *** Methods that call no method of the class *)

Definition acknowledge_event (self event_id : value) : M value :=
  try_except
    (session ← getattr stage0 self "_session";
     f ← getattr stage0 session "acknowledge_event";
     _ ← call stage0 f [event_id] [];
     mret VNone)
    pagerduty_PagerDutyError
    (fun e => raise (AirflowException ("Failed to acknowledge event: " +:+ exn_str e) (Some e))).

Definition post_event (self payload : value) : M value :=
  try_except
    (session ← getattr stage0 self "_session";
     f ← getattr stage0 session "post_event";
     response ← call stage0 f [payload] [];
     event ← lift (subscript response (VStr "event"));
     lift (subscript event (VStr "id")))
    pagerduty_PagerDutyError
    (fun e => raise (AirflowException ("Failed to post event: " +:+ exn_str e) (Some e))).

Definition prepare_headers (self : value) : M value :=
  key ← getattr stage0 self "integration_key";
  mret (VDict [ ("Authorization", VStr ("Token token=" +:+ py_str key));
                ("Content-Type", VStr "application/json") ]).

Definition resolve_event (self event_id : value) : M value :=
  try_except
    (session ← getattr stage0 self "_session";
     f ← getattr stage0 session "resolve_event";
     _ ← call stage0 f [event_id] [];
     mret VNone)
    pagerduty_PagerDutyError
    (fun e => raise (AirflowException ("Failed to resolve event: " +:+ exn_str e) (Some e))).

Definition send_change_event (self payload event_type routing_key : value) : M value :=
  routing_key ← (if is_none routing_key
                 then getattr stage0 self "integration_key"
                 else mret routing_key);
  try_except
    (session ← getattr stage0 self "_session";
     f ← getattr stage0 session "send_event";
     response ← call stage0 f [payload; event_type; routing_key] [];
     event ← lift (subscript response (VStr "event"));
     lift (subscript event (VStr "id")))
    pagerduty_PagerDutyError
    (fun e => raise (AirflowException ("Failed to send change event: " +:+ exn_str e) (Some e))).

Definition acknowledge_event_def : callable :=
  def_ (Signature "acknowledge_event" [("self", None); ("event_id", None)] false)
       (fun env _ => acknowledge_event (arg env "self") (arg env "event_id")).

Definition post_event_def : callable :=
  def_ (Signature "post_event" [("self", None); ("payload", None)] false)
       (fun env _ => post_event (arg env "self") (arg env "payload")).

Definition prepare_headers_def : callable :=
  def_ (Signature "prepare_headers" [("self", None)] false)
       (fun env _ => prepare_headers (arg env "self")).

Definition resolve_event_def : callable :=
  def_ (Signature "resolve_event" [("self", None); ("event_id", None)] false)
       (fun env _ => resolve_event (arg env "self") (arg env "event_id")).

Definition send_change_event_def : callable :=
  def_ (Signature "send_change_event"
          [("self", None); ("payload", None);
           ("event_type", Some (VStr "trigger")); ("routing_key", Some VNone)] false)
       (fun env _ => send_change_event (arg env "self") (arg env "payload")
                       (arg env "event_type") (arg env "routing_key")).

Definition stage1 : class_def :=
  Class_ class_shape
    [ ("acknowledge_event", acknowledge_event_def);
      ("post_event", post_event_def);
      ("prepare_headers", prepare_headers_def);
      ("resolve_event", resolve_event_def);
      ("send_change_event", send_change_event_def) ].

(** *** [__init__] and [send_event] *)

Definition no_token_message : string :=
  "Cannot get token: No valid integration key nor pagerduty_events_conn_id supplied.".

Definition __init__ (self integration_key pagerduty_events_conn_id : value) : M value :=
  _ ← object_init;
  _ ← setattr stage1 self "integration_key" VNone;
  _ ← setattr stage1 self "_session" VNone;
  _ ← (if negb (is_none pagerduty_events_conn_id)
       then get_connection ← getattr stage1 self "get_connection";
            conn ← call stage1 get_connection [pagerduty_events_conn_id] [];
            get_password ← getattr stage1 conn "get_password";
            password ← call stage1 get_password [] [];
            setattr stage1 self "integration_key" password
       else mret tt);
  _ ← (if negb (is_none integration_key)
       then setattr stage1 self "integration_key" integration_key
       else mret tt);
  key ← getattr stage1 self "integration_key";
  if is_none key
  then raise (AirflowException no_token_message None)
  else mret VNone.

(** The parameters of [send_event], [submit_event] and [trigger_event]
    after [self]. *)
Record event_args : Type := EventArgs {
  summary : value;
  severity : value;
  source : value;
  custom_details : value;
  component : value;
  group : value;
  class_type : value;
  action : value;
  dedup_key : value;
  images : value;
  links : value
}.

Definition event_params : list (string * option value) :=
  [ ("summary", None); ("severity", None); ("source", None);
    ("custom_details", Some VNone); ("component", Some VNone);
    ("group", Some VNone); ("class_type", Some VNone);
    ("action", Some (VStr "trigger")); ("dedup_key", Some VNone);
    ("images", Some VNone); ("links", Some VNone) ].

Definition event_args_of (env : list (string * value)) : event_args :=
  EventArgs (arg env "summary") (arg env "severity") (arg env "source")
            (arg env "custom_details") (arg env "component") (arg env "group")
            (arg env "class_type") (arg env "action") (arg env "dedup_key")
            (arg env "images") (arg env "links").

(** The keywords [summary=summary, ..., links=links] all three methods
    pass on. *)
Definition event_keywords (a : event_args) : list (string * value) :=
  [ ("summary", summary a); ("severity", severity a); ("source", source a);
    ("custom_details", custom_details a); ("component", component a);
    ("group", group a); ("class_type", class_type a); ("action", action a);
    ("dedup_key", dedup_key a); ("images", images a); ("links", links a) ].

Definition send_event (self : value) (a : event_args) : M value :=
  prepare_payload ← getattr stage1 self "prepare_payload";
  payload ← call stage1 prepare_payload [] (event_keywords a);
  post_event ← getattr stage1 self "post_event";
  call stage1 post_event [payload] [].

Definition init_def : callable :=
  def_ (Signature "__init__"
          [("self", None); ("integration_key", Some VNone);
           ("pagerduty_events_conn_id", Some VNone)] false)
       (fun env _ => __init__ (arg env "self") (arg env "integration_key")
                       (arg env "pagerduty_events_conn_id")).

Definition send_event_def : callable :=
  def_ (Signature "send_event" (("self", None) :: event_params) false)
       (fun env _ => send_event (arg env "self") (event_args_of env)).

Definition stage2 : class_def :=
  Class_ class_shape
    (("__init__", init_def) :: functions stage1 ++ [("send_event", send_event_def)]).

(** *** [submit_event] and [trigger_event] *)

Definition submit_event (self : value) (a : event_args) : M value :=
  send_event ← getattr stage2 self "send_event";
  call stage2 send_event [] (event_keywords a).

Definition trigger_event (self : value) (a : event_args) : M value :=
  send_event ← getattr stage2 self "send_event";
  call stage2 send_event [] (event_keywords a).

Definition submit_event_def : callable :=
  def_ (Signature "submit_event" (("self", None) :: event_params) false)
       (fun env _ => submit_event (arg env "self") (event_args_of env)).

Definition trigger_event_def : callable :=
  def_ (Signature "trigger_event" (("self", None) :: event_params) false)
       (fun env _ => trigger_event (arg env "self") (event_args_of env)).

(** The class as the module leaves it. *)
Definition class_ : class_def :=
  Class_ class_shape
    (functions stage2 ++
     [("submit_event", submit_event_def); ("trigger_event", trigger_event_def)]).

(** [EventsAPiV2Client(...)]: a new instance, then [__init__] on it; the
    instance is the caller's only if [__init__] returns. *)
Definition construct (pos : list value) (kw : list (string * value)) : result world * world :=
  match call class_ (VMethod "__init__") pos kw (World ∅ []) with
  | (Ok _, w) => (Ok w, w)
  | (Raise e, w) => (Raise e, w)
  end.

(** [hook.name(...)] from outside the class. *)
Definition invoke (name : string) (pos : list value) (kw : list (string * value)) : M value :=
  f ← getattr class_ VSelf name;
  call class_ f pos kw.

End WithEnvironment.
End EventsAPiV2Client.

(** ** [hooks/ApiClient.py]: class [ApiClient] *)

Module ApiClient.
Import Py.

Section WithEnvironment.
Context `{Environment}.

(** The names the module's top-level statements bind before and by the
    [class] statement ([datetime] is imported under [TYPE_CHECKING]
    only). *)
Definition module_globals : list string :=
  [ "__name__"; "__doc__"; "__package__"; "__loader__"; "__spec__";
    "__file__"; "__cached__"; "__builtins__";
    "annotations"; "TYPE_CHECKING"; "Any"; "pagerduty"; "AirflowException";
    "BaseHook"; "ApiClient" ].

Definition permitted_methods : list string :=
  [ "GET"; "POST"; "PUT"; "DELETE"; "PATCH" ].

Section InClass.

(** The [def]s of the class body, as the functions of a class whose body
    left the namespace [ns]; [class_statement] below is what produces the
    namespace.  They are defined bottom-up, as for [EventsAPiV2Client]. *)
Variable ns : list (string * kind).

Definition stage0 : class_def := Class_ ns [].

(** *** Functions that call no function of the class *)

(** [api_key] and [auth_header], the two properties. *)
Definition api_key (self : value) : M value :=
  session ← getattr stage0 self "_session";
  getattr stage0 session "api_key".

Definition auth_header (self : value) : M value :=
  session ← getattr stage0 self "_session";
  getattr stage0 session "auth_header".

Definition normalize_params (self params : value) : M value := mret params.

Definition normalize_url (self url : value) : M value := mret url.

(** [def postprocess(response)]: no [self] in the parameter list. *)
Definition postprocess (response : value) : M value := mret response.

(** [def prepare_headers(method, user_headers={})]: no [self] in the
    parameter list either, so that [self.prepare_headers()] binds the
    instance to [method].  The default is the one dict the [def] statement
    made: every call that leaves [user_headers] out receives that same
    object ([default_user_headers]), whatever it holds by then. *)
Definition default_user_headers : value := VExt "prepare_headers.user_headers".

Definition prepare_headers (method user_headers : value) : M value := mret user_headers.

(** [def request(method, url, **kwargs)].  The body's [self], [params],
    [data] and [headers] are no parameters and are assigned nowhere in the
    body, so each is a global load.  Python evaluates the callee
    [self._session.request] first, then the arguments from the left. *)
Definition request (method url : value) (kwargs : list (string * value)) : M value :=
  self ← load_global module_globals "self";
  session ← getattr stage0 self "_session";
  session_request ← getattr stage0 session "request";
  params ← load_global module_globals "params";
  data ← load_global module_globals "data";
  headers ← load_global module_globals "headers";
  response ← call stage0 session_request [method; url]
               (("params", params) :: ("data", data) :: ("headers", headers) :: kwargs);
  mret response.

Definition api_key_def : callable :=
  def_ (Signature "api_key" [("self", None)] false)
       (fun env _ => api_key (arg env "self")).

Definition auth_header_def : callable :=
  def_ (Signature "auth_header" [("self", None)] false)
       (fun env _ => auth_header (arg env "self")).

Definition normalize_params_def : callable :=
  def_ (Signature "normalize_params" [("self", None); ("params", None)] false)
       (fun env _ => normalize_params (arg env "self") (arg env "params")).

Definition normalize_url_def : callable :=
  def_ (Signature "normalize_url" [("self", None); ("url", None)] false)
       (fun env _ => normalize_url (arg env "self") (arg env "url")).

Definition postprocess_def : callable :=
  def_ (Signature "postprocess" [("response", None)] false)
       (fun env _ => postprocess (arg env "response")).

Definition prepare_headers_def : callable :=
  def_ (Signature "prepare_headers"
          [("method", None); ("user_headers", Some default_user_headers)] false)
       (fun env _ => prepare_headers (arg env "method") (arg env "user_headers")).

Definition request_def : callable :=
  def_ (Signature "request" [("method", None); ("url", None)] true)
       (fun env kwargs => request (arg env "method") (arg env "url") kwargs).

Definition stage1 : class_def :=
  Class_ ns
    [ ("api_key", api_key_def);
      ("auth_header", auth_header_def);
      ("normalize_params", normalize_params_def);
      ("normalize_url", normalize_url_def);
      ("postprocess", postprocess_def);
      ("prepare_headers", prepare_headers_def);
      ("request", request_def) ].

(** *** [__init__] and [after_set_api_key] *)

Definition no_token_message : string :=
  "Cannot get token: No valid integration key nor pagerduty_events_conn_id supplied.".

Definition __init__ (self integration_key pagerduty_events_conn_id : value) : M value :=
  _ ← object_init;
  _ ← setattr stage1 self "integration_key" VNone;
  _ ← setattr stage1 self "_session" VNone;
  _ ← (if negb (is_none pagerduty_events_conn_id)
       then get_connection ← getattr stage1 self "get_connection";
            conn ← call stage1 get_connection [pagerduty_events_conn_id] [];
            get_password ← getattr stage1 conn "get_password";
            password ← call stage1 get_password [] [];
            setattr stage1 self "integration_key" password
       else mret tt);
  _ ← (if negb (is_none integration_key)
       then setattr stage1 self "integration_key" integration_key
       else mret tt);
  key ← getattr stage1 self "integration_key";
  if is_none key
  then raise (AirflowException no_token_message None)
  else mret VNone.

Definition after_set_api_key (self : value) : M value :=
  pagerduty ← load_global module_globals "pagerduty";
  APISession ← getattr stage1 pagerduty "APISession";
  key ← getattr stage1 self "integration_key";
  session ← call stage1 APISession [key] [];
  _ ← setattr stage1 self "_session" session;
  session ← getattr stage1 self "_session";
  headers ← getattr stage1 session "headers";
  update ← getattr stage1 headers "update";
  prepare ← getattr stage1 self "prepare_headers";
  prepared ← call stage1 prepare [] [];
  _ ← call stage1 update [prepared] [];
  mret VNone.

Definition init_def : callable :=
  def_ (Signature "__init__"
          [("self", None); ("integration_key", Some VNone);
           ("pagerduty_events_conn_id", Some VNone)] false)
       (fun env _ => __init__ (arg env "self") (arg env "integration_key")
                       (arg env "pagerduty_events_conn_id")).

Definition after_set_api_key_def : callable :=
  def_ (Signature "after_set_api_key" [("self", None)] false)
       (fun env _ => after_set_api_key (arg env "self")).

(** The functions behind the nine [def]s, in source order. *)
Definition defs : list (string * callable) :=
  ("__init__", init_def) :: ("after_set_api_key", after_set_api_key_def)
    :: functions stage1.

End InClass.

(** *** The [class] statement *)

(** A name read in the class body: the names the body has bound so far,
    then the module's globals and the builtins. *)
Definition load_name (bound : list (string * kind)) (name : string) : M value :=
  match assoc name bound with
  | Some (KAttribute v) => mret v
  | Some _ => mret (VMethod name)
  | None => load_global module_globals name
  end.

Definition is_true (v : value) : bool :=
  match v with
  | VBool true => true
  | _ => false
  end.

(** The class body, statement by statement: each [def] and assignment
    binds its name; the decorator [property] and the right-hand sides are
    evaluated on the way (parameter annotations are not, under
    [from __future__ import annotations]). *)
Definition class_statement : M (list (string * kind)) :=
  let ns := [] in
  let ns := ("__init__", KFunction) :: ns in
  let ns := ("after_set_api_key", KFunction) :: ns in
  _ ← load_name ns "property";
  let ns := ("api_key", KProperty) :: ns in
  _ ← load_name ns "property";
  let ns := ("auth_header", KProperty) :: ns in
  let ns := ("log", KAttribute VNone) :: ns in
  let ns := ("max_http_attempts", KAttribute (VInt 10)) :: ns in
  let ns := ("max_network_attempts", KAttribute (VInt 3)) :: ns in
  let ns := ("normalize_params", KFunction) :: ns in
  let ns := ("normalize_url", KFunction) :: ns in
  let ns := ("parent", KAttribute VNone) :: ns in
  let ns := ("permitted_methods", KAttribute (VList (map VStr permitted_methods))) :: ns in
  let ns := ("postprocess", KFunction) :: ns in
  let ns := ("prepare_headers", KFunction) :: ns in
  let ns := ("print_debug", KAttribute (VBool false)) :: ns in
  print_debug ← load_name ns "print_debug";
  ns ← (if is_true print_debug
        then logging ← load_name ns "logging";
             level ← getattr (Class_ ns []) logging "DEBUG";
             let ns := ("log", KAttribute level) :: ns in
             print ← load_name ns "print";
             log ← load_name ns "log";
             _ ← call (Class_ ns []) print [log] [];
             mret ns
        else mret ns);
  logging ← load_name ns "logging";
  level ← getattr (Class_ ns []) logging "NOTSET";
  let ns := ("log", KAttribute level) :: ns in
  let ns := ("request", KFunction) :: ns in
  let ns := ("retry", KAttribute (VDict [])) :: ns in
  let ns := ("sleep_timer", KAttribute (VFloat (3 # 2))) :: ns in
  let ns := ("sleep_timer_base", KAttribute (VInt 2)) :: ns in
  let ns := ("timeout", KAttribute (VInt 60)) :: ns in
  mret ns.

(** The class, once the [class] statement has produced its namespace. *)
Definition class_of (ns : list (string * kind)) : class_def := Class_ ns (defs ns).

(** [ApiClient(...)] in a program that imports the module: the [class]
    statement runs when the module is imported; if it completes, a new
    instance is made and [__init__] runs on it. *)
Definition construct (pos : list value) (kw : list (string * value)) : result world * world :=
  match class_statement (World ∅ []) with
  | (Ok ns, w0) =>
      match call (class_of ns) (VMethod "__init__") pos kw w0 with
      | (Ok _, w) => (Ok w, w)
      | (Raise e, w) => (Raise e, w)
      end
  | (Raise e, w0) => (Raise e, w0)
  end.


End WithEnvironment.
End ApiClient.

(** ** Instances, operation sequences and environments to test against *)

Module Scenario.
Import Py.

(** The construction inputs are [str | None]. *)
Definition opt_str (o : option string) : value :=
  match o with
  | Some s => VStr s
  | None => VNone
  end.

(** The instance a successful [__init__] leaves: the resolved token, no
    session, and nothing called yet. *)
Definition ready (key : value) : world :=
  World {[ "integration_key" := key; "_session" := VNone ]} [].

(** An instance that was never handed a session and has made no call: its
    [_session] is [None] and its [__dict__] holds nothing but the two
    attributes [__init__] assigns. *)
Definition idle (w : world) : Prop :=
  self_dict w !! "_session" = Some VNone /\
  is_Some (self_dict w !! "integration_key") /\
  calls w = [] /\
  forall name, name <> "_session" -> name <> "integration_key" ->
               self_dict w !! name = None.

(** What [__init__] may start from: nothing called yet, and no attribute
    other than the two it assigns. *)
Definition fresh (w : world) : Prop :=
  calls w = [] /\
  forall name, name <> "_session" -> name <> "integration_key" ->
               self_dict w !! name = None.

(** The methods of [EventsAPiV2Client]. *)
Inductive method : Type :=
| Init
| AcknowledgeEvent
| PostEvent
| PrepareHeaders
| ResolveEvent
| SendChangeEvent
| SendEvent
| SubmitEvent
| TriggerEvent.

Definition method_name (m : method) : string :=
  match m with
  | Init => "__init__"
  | AcknowledgeEvent => "acknowledge_event"
  | PostEvent => "post_event"
  | PrepareHeaders => "prepare_headers"
  | ResolveEvent => "resolve_event"
  | SendChangeEvent => "send_change_event"
  | SendEvent => "send_event"
  | SubmitEvent => "submit_event"
  | TriggerEvent => "trigger_event"
  end.

(** The four that go to the service through [self._session]. *)
Definition uses_session (m : method) : bool :=
  match m with
  | AcknowledgeEvent | PostEvent | ResolveEvent | SendChangeEvent => true
  | _ => false
  end.

(** One call [hook.m(...)] with whatever arguments the caller writes. *)
Record operation : Type := Operation {
  op_method : method;
  op_positional : list value;
  op_keywords : list (string * value)
}.

(** A sequence of calls on one instance: the outcome of each, and the world
    after the last. *)
Fixpoint run `{Environment} (ops : list operation) (w : world) : list (result value) * world :=
  match ops with
  | [] => ([], w)
  | op :: rest =>
      let (r, w1) := EventsAPiV2Client.invoke (method_name (op_method op))
                       (op_positional op) (op_keywords op) w in
      let (rs, w2) := run rest w1 in
      (r :: rs, w2)
  end.

Definition failed {A} (r : result A) : Prop :=
  match r with
  | Raise _ => True
  | Ok _ => False
  end.

Definition is_airflow_exception {A} (r : result A) : bool :=
  match r with
  | Raise (AirflowException _ _) => true
  | _ => false
  end.


(** The two-entry mapping the specification gives for [prepare_headers]. *)
Definition token_headers (token : string) : value :=
  VDict [ ("Authorization", VStr ("Token token=" +:+ token));
          ("Content-Type", VStr "application/json") ].

(** The response the specification's [post_event] example starts from. *)
Definition created_E1 : value :=
  VDict [ ("event", VDict [ ("id", VStr "E1") ]) ].

(** An environment with nothing in it: no external object has any
    attribute, and a call returns [None]. *)
Definition bare : Environment :=
  {| ext_getattr := fun obj name => Raise (AttributeError (VExt obj) name);
     ext_call := fun _ _ => Ok VNone;
     ext_isinstance := fun _ _ => false;
     ext_str := fun _ => "";
     ext_exn_str := fun _ => "" |}.

(** An environment whose objects have every attribute and in which every
    call has the outcome [r]. *)
Definition answering (r : result value) : Environment :=
  {| ext_getattr := fun obj name => Ok (VExt (obj +:+ "." +:+ name));
     ext_call := fun _ _ => r;
     ext_isinstance := fun _ _ => false;
     ext_str := fun _ => "";
     ext_exn_str := fun _ => "" |}.

(** The same, except that the module [pagerduty] has no attribute
    [PagerDutyError]: reading it raises [AttributeError]. *)
Definition without_PagerDutyError (r : result value) : Environment :=
  {| ext_getattr := fun obj name =>
       if String.eqb obj "pagerduty" && String.eqb name "PagerDutyError"
       then Raise (AttributeError (VExt "pagerduty") "PagerDutyError")
       else Ok (VExt (obj +:+ "." +:+ name));
     ext_call := fun _ _ => r;
     ext_isinstance := fun _ _ => false;
     ext_str := fun _ => "";
     ext_exn_str := fun _ => "" |}.

(** An environment in which [pagerduty.PagerDutyError] is a class, and the
    exceptions of that class are exactly its instances. *)
Definition with_PagerDutyError (r : result value) : Environment :=
  {| ext_getattr := fun obj name => Ok (VExt (obj +:+ "." +:+ name));
     ext_call := fun _ _ => r;
     ext_isinstance := fun e cls =>
       match e with
       | LibraryError c _ => String.eqb c cls
       | _ => false
       end;
     ext_str := fun _ => "";
     ext_exn_str := fun _ => "" |}.

(** An instance that was handed a session from outside ([hook._session =
    ...]), as a test with a mocked session does. *)
Definition with_session (key : value) (session : string) : world :=
  World {[ "integration_key" := key; "_session" := VExt session ]} [].

(** What becomes of an exception [e] that leaves the [try] body of one of
    the four session methods, [prefix] being the method's message: the
    clause's [pagerduty.PagerDutyError] is read first. *)
Definition on_exception `{Environment} (prefix : string) (e : exn) : result value :=
  match ext_getattr "pagerduty" "PagerDutyError" with
  | Raise e' => Raise e'
  | Ok (VExt cls) =>
      if ext_isinstance e cls
      then Raise (AirflowException (prefix +:+ exn_str e) (Some e))
      else Raise e
  | Ok other => Raise (TypeError (NotAnExceptionClass other))
  end.

(** An instance whose [__init__] was run again and raised: the token is
    gone. *)
Definition cleared : world :=
  World {[ "integration_key" := VNone; "_session" := VNone ]} [].

End Scenario.

(** ** Properties *)

Import Py Scenario.

(** Unfolds the monad and the object protocol down to matches on the
    world. *)
Ltac py_unfold :=
  unfold mbind, M_bind, mret, M_ret, bind, ret, raise, lift, setattr, getattr,
    call, apply_function, object_init, def_ in *.

Ltac py_run := py_unfold; cbn.

(** *** Late binding: the stages agree with the finished class *)

(** Every name [EventsAPiV2Client]'s methods look up on [self] resolves at
    the stage its method is written against as it does in the finished
    class. *)
Lemma events_api_sites_agree `{Environment} :
  shape EventsAPiV2Client.stage0 = shape EventsAPiV2Client.class_ /\
  shape EventsAPiV2Client.stage1 = shape EventsAPiV2Client.class_ /\
  shape EventsAPiV2Client.stage2 = shape EventsAPiV2Client.class_ /\
  assoc "get_connection" (functions EventsAPiV2Client.stage1)
    = assoc "get_connection" (functions EventsAPiV2Client.class_) /\
  assoc "prepare_payload" (functions EventsAPiV2Client.stage1)
    = assoc "prepare_payload" (functions EventsAPiV2Client.class_) /\
  assoc "post_event" (functions EventsAPiV2Client.stage1)
    = assoc "post_event" (functions EventsAPiV2Client.class_) /\
  assoc "send_event" (functions EventsAPiV2Client.stage2)
    = assoc "send_event" (functions EventsAPiV2Client.class_).
Proof. repeat split. Qed.

(** Every [def] of the class body has its function in the finished class,
    and nothing else has. *)
Lemma events_api_functions_complete `{Environment} :
  map fst (functions EventsAPiV2Client.class_)
  = map fst (filter (fun entry => is_def (snd entry)) EventsAPiV2Client.class_shape).
Proof. reflexivity. Qed.

(** *** Construction *)

(** With an explicit token and no connection id, [__init__] of
    [EventsAPiV2Client] returns and the token is the instance's
    [integration_key]. *)
Lemma construct_explicit_token `{Environment} (key : value) :
  is_none key = false ->
  EventsAPiV2Client.construct [key] [] = (Ok (ready key), ready key).
Proof.
  intros Hkey.
  unfold EventsAPiV2Client.construct; cbn.
  unfold EventsAPiV2Client.__init__; py_run.
  rewrite Hkey; cbn.
  rewrite !lookup_insert_eq, Hkey.
  reflexivity.
Qed.

(** With neither input, [__init__] raises the [AirflowException] of its
    last statement. *)
Lemma construct_without_inputs `{Environment} :
  fst (EventsAPiV2Client.construct [] [])
    = Raise (AirflowException EventsAPiV2Client.no_token_message None).
Proof. reflexivity. Qed.

(** The [class] statement of [ApiClient.py] does not complete, so no
    [ApiClient] is ever constructed: whatever the arguments, the attempt
    ends in the [NameError] of the class body, with nothing called. *)
Lemma api_client_construct_raises `{Environment}
    (pos : list value) (kw : list (string * value)) :
  ApiClient.construct pos kw = (Raise (NameError "logging"), World ∅ []).
Proof. reflexivity. Qed.

(** C1, the code on a connection id: [EventsAPiV2Client] has no
    [get_connection] (the [class] statement names no base, [BaseHook] is
    imported and left unused), so whenever [pagerduty_events_conn_id] is
    given, with or without an explicit token, [__init__] stops at
    [self.get_connection] with [AttributeError] and no instance is
    constructed; [ApiClient] is not constructed either, its [class]
    statement having raised [NameError] before. *)
Theorem construct_with_conn_id_raises `{Environment} (integration_key : value) (conn_id : string) :
  fst (EventsAPiV2Client.construct [integration_key; VStr conn_id] [])
    = Raise (AttributeError VSelf "get_connection") /\
  fst (ApiClient.construct [integration_key; VStr conn_id] [])
    = Raise (NameError "logging").
Proof. split; reflexivity. Qed.

(** C2, the code on a connection id that holds no token: with no explicit
    token and a connection id, [__init__] fails, but with the
    [AttributeError] of the missing [get_connection], not with
    [AirflowException]. *)
Theorem construct_with_only_conn_id_is_no_AirflowException `{Environment} (conn_id : string) :
  is_airflow_exception (fst (EventsAPiV2Client.construct [VNone; VStr conn_id] [])) = false /\
  is_airflow_exception (fst (ApiClient.construct [VNone; VStr conn_id] [])) = false /\
  failed (fst (EventsAPiV2Client.construct [VNone; VStr conn_id] [])) /\
  failed (fst (ApiClient.construct [VNone; VStr conn_id] [])).
Proof. repeat split. Qed.

(** *** Instances that [__init__] left *)

(** *** Instances that [__init__] left *)

Lemma ready_idle (key : value) : idle (ready key).
Proof.
  split; [reflexivity | split; [now exists key | split; [reflexivity |]]].
  intros name Hs Hk. unfold ready. cbn [self_dict].
  rewrite lookup_insert_ne by congruence.
  apply lookup_singleton_ne. congruence.
Qed.

Lemma ready_integration_key (key : value) :
  self_dict (ready key) !! "integration_key" = Some key.
Proof. reflexivity. Qed.

(** *** Sending events *)

(** On an instance without a [prepare_payload] of its own, [send_event]
    stops at its first attribute lookup: the class defines no
    [prepare_payload]. *)
Lemma send_event_without_prepare_payload `{Environment}
    (a : EventsAPiV2Client.event_args) (w : world) :
  self_dict w !! "prepare_payload" = None ->
  EventsAPiV2Client.send_event VSelf a w
    = (Raise (AttributeError VSelf "prepare_payload"), w).
Proof.
  intros Hnone. unfold EventsAPiV2Client.send_event. py_run.
  rewrite Hnone. reflexivity.
Qed.

(** Binding the keywords [summary=summary, ..., links=links] to the
    parameters of [send_event] gives the arguments back. *)
Lemma event_keywords_bind (name : string) (a : EventsAPiV2Client.event_args) :
  bind_args (Signature name (("self", None) :: EventsAPiV2Client.event_params) false)
            [VSelf] (EventsAPiV2Client.event_keywords a)
  = Ok (("self", VSelf) :: EventsAPiV2Client.event_keywords a, []).
Proof. destruct a; reflexivity. Qed.

Lemma event_args_of_keywords (a : EventsAPiV2Client.event_args) :
  EventsAPiV2Client.event_args_of (("self", VSelf) :: EventsAPiV2Client.event_keywords a) = a.
Proof. destruct a; reflexivity. Qed.

(** C3, the code on any arguments: on a constructed instance [send_event]
    builds no payload and forwards nothing to [post_event]; it raises
    [AttributeError] for [prepare_payload], which the class does not
    define, as a direct call and as [hook.send_event(summary, severity,
    source)] alike, and leaves the instance as it was. *)
Theorem send_event_raises_AttributeError `{Environment}
    (key : value) (a : EventsAPiV2Client.event_args) :
  EventsAPiV2Client.send_event VSelf a (ready key)
    = (Raise (AttributeError VSelf "prepare_payload"), ready key) /\
  EventsAPiV2Client.invoke "send_event"
      [EventsAPiV2Client.summary a; EventsAPiV2Client.severity a; EventsAPiV2Client.source a]
      [] (ready key)
    = (Raise (AttributeError VSelf "prepare_payload"), ready key).
Proof. split; reflexivity. Qed.

(** [self.send_event(summary=summary, ..., links=links)] is [send_event]
    on the same arguments, unless the instance hides the method. *)
Lemma delegates_to_send_event `{Environment}
    (a : EventsAPiV2Client.event_args) (w : world) :
  self_dict w !! "send_event" = None ->
  (send_event ← getattr EventsAPiV2Client.stage2 VSelf "send_event";
   call EventsAPiV2Client.stage2 send_event [] (EventsAPiV2Client.event_keywords a)) w
  = EventsAPiV2Client.send_event VSelf a w.
Proof.
  intros Hfree.
  py_unfold. cbn [assoc shape EventsAPiV2Client.stage2 EventsAPiV2Client.class_shape String.eqb Ascii.eqb Bool.eqb].
  rewrite Hfree.
  cbn [assoc functions EventsAPiV2Client.stage2 EventsAPiV2Client.stage1 app String.eqb Ascii.eqb Bool.eqb].
  unfold EventsAPiV2Client.send_event_def, def_.
  rewrite event_keywords_bind, event_args_of_keywords.
  reflexivity.
Qed.

(** C4: for every argument tuple, [submit_event] and [trigger_event] are
    [send_event] on the same arguments: the same result or the same
    exception, and the same world after, hence the same calls into the
    library with the same payloads.  (The instance must not carry an
    attribute of its own named [send_event], which would hide the
    method.) *)
Theorem submit_and_trigger_are_send_event `{Environment}
    (a : EventsAPiV2Client.event_args) (w : world) :
  self_dict w !! "send_event" = None ->
  EventsAPiV2Client.submit_event VSelf a w = EventsAPiV2Client.send_event VSelf a w /\
  EventsAPiV2Client.trigger_event VSelf a w = EventsAPiV2Client.send_event VSelf a w.
Proof.
  intros Hfree.
  split; [unfold EventsAPiV2Client.submit_event | unfold EventsAPiV2Client.trigger_event];
    now apply delegates_to_send_event.
Qed.

Lemma submit_and_trigger_are_send_event_witness :
  self_dict (ready (VStr "R0UT1NGKEY")) !! "send_event" = None /\
  @EventsAPiV2Client.submit_event bare VSelf
     (EventsAPiV2Client.EventArgs (VStr "disk full") (VStr "critical") (VStr "db-1")
        VNone VNone VNone VNone (VStr "trigger") VNone VNone VNone)
     (ready (VStr "R0UT1NGKEY"))
  = @EventsAPiV2Client.send_event bare VSelf
     (EventsAPiV2Client.EventArgs (VStr "disk full") (VStr "critical") (VStr "db-1")
        VNone VNone VNone VNone (VStr "trigger") VNone VNone VNone)
     (ready (VStr "R0UT1NGKEY")).
Proof.
  split; [reflexivity |].
  apply (@submit_and_trigger_are_send_event bare). reflexivity.
Defined.

(** *** The [except] clauses *)

(** What the four [try] statements do with their body: a returned value is
    the statement's; an exception goes through [on_exception]. *)
Lemma try_except_run `{Environment} (body : M value) (prefix : string) (w : world) :
  try_except body EventsAPiV2Client.pagerduty_PagerDutyError
    (fun e => raise (AirflowException (prefix +:+ exn_str e) (Some e))) w
  = match body w with
    | (Ok v, w1) => (Ok v, w1)
    | (Raise e, w1) => (on_exception prefix e, w1)
    end.
Proof.
  unfold try_except, EventsAPiV2Client.pagerduty_PagerDutyError, on_exception.
  destruct (body w) as [[v | e] w1]; [reflexivity |].
  py_run.
  destruct (ext_getattr "pagerduty" "PagerDutyError") as [[] | e']; try reflexivity.
  destruct (ext_isinstance e id); reflexivity.
Qed.

(** Whatever the environment, an exception that leaves a [try] body ends
    in an exception. *)
Lemma on_exception_failed `{Environment} (prefix : string) (e : exn) :
  failed (on_exception prefix e).
Proof.
  unfold on_exception.
  destruct (ext_getattr "pagerduty" "PagerDutyError") as [[] | e']; try exact I.
  destruct (ext_isinstance e id); exact I.
Qed.

(** Where the module [pagerduty] has no [PagerDutyError], the clause's own
    exception takes the place of every exception that reaches it. *)
Lemma on_exception_unresolved `{Environment} (prefix : string) (e e' : exn) :
  ext_getattr "pagerduty" "PagerDutyError" = Raise e' ->
  on_exception prefix e = Raise e'.
Proof. intros Hclause. unfold on_exception. now rewrite Hclause. Qed.

(** *** [post_event] with a session *)

(** What [post_event] does once [self._session] is an object of the
    library: one call of its [post_event] with the payload, recorded. *)
Lemma post_event_calls_session `{Environment}
    (w : world) (payload : value) (session f : string) :
  self_dict w !! "_session" = Some (VExt session) ->
  ext_getattr session "post_event" = Ok (VExt f) ->
  EventsAPiV2Client.post_event VSelf payload w
  = let c := ExtCall f [payload] [] in
    let w' := World (self_dict w) (calls w ++ [c]) in
    let prefix := "Failed to post event: " in
    match ext_call (calls w) c with
    | Ok response =>
        match subscript response (VStr "event") with
        | Ok event =>
            match subscript event (VStr "id") with
            | Ok id => (Ok id, w')
            | Raise e => (on_exception prefix e, w')
            end
        | Raise e => (on_exception prefix e, w')
        end
    | Raise e => (on_exception prefix e, w')
    end.
Proof.
  intros Hsession Hattr. unfold EventsAPiV2Client.post_event.
  rewrite try_except_run. py_run.
  rewrite Hsession, Hattr. cbn.
  destruct (ext_call (calls w) (ExtCall f [payload] [])) as [response | e]; cbn;
    [| reflexivity].
  destruct (subscript response (VStr "event")) as [event | e]; cbn; [| reflexivity].
  destruct (subscript event (VStr "id")) as [id | e]; reflexivity.
Qed.

(** C5: for every payload, when the library's [post_event] returns
    [{"event": {"id": "E1"}}], [post_event(payload)] returns ["E1"]. *)
Theorem post_event_returns_event_id `{Environment}
    (w : world) (payload : value) (session f : string) :
  self_dict w !! "_session" = Some (VExt session) ->
  ext_getattr session "post_event" = Ok (VExt f) ->
  ext_call (calls w) (ExtCall f [payload] []) = Ok created_E1 ->
  fst (EventsAPiV2Client.post_event VSelf payload w) = Ok (VStr "E1").
Proof.
  intros Hsession Hattr Hcall.
  rewrite (post_event_calls_session w payload session f Hsession Hattr).
  cbn zeta. rewrite Hcall. reflexivity.
Qed.

Lemma post_event_returns_event_id_witness :
  self_dict (with_session (VStr "R0UT1NGKEY") "session") !! "_session" = Some (VExt "session") /\
  @ext_getattr (answering (Ok created_E1)) "session" "post_event"
    = Ok (VExt "session.post_event") /\
  @ext_call (answering (Ok created_E1)) []
     (ExtCall "session.post_event" [VDict [("summary", VStr "disk full")]] [])
    = Ok created_E1 /\
  fst (@EventsAPiV2Client.post_event (answering (Ok created_E1)) VSelf
         (VDict [("summary", VStr "disk full")])
         (with_session (VStr "R0UT1NGKEY") "session"))
    = Ok (VStr "E1").
Proof.
  repeat (split; [reflexivity |]).
  apply (@post_event_returns_event_id (answering (Ok created_E1))
           (with_session (VStr "R0UT1NGKEY") "session")
           (VDict [("summary", VStr "disk full")]) "session" "session.post_event");
    reflexivity.
Defined.

(** Where [pagerduty.PagerDutyError] is a class and the library raises an
    instance of it, [post_event] raises [AirflowException] with the
    library's message after its own prefix, and with the library's error as
    the cause. *)
Lemma post_event_wraps_where_clause_resolves `{Environment}
    (w : world) (payload : value) (session f cls raised msg : string) :
  self_dict w !! "_session" = Some (VExt session) ->
  ext_getattr session "post_event" = Ok (VExt f) ->
  ext_call (calls w) (ExtCall f [payload] []) = Raise (LibraryError raised msg) ->
  ext_getattr "pagerduty" "PagerDutyError" = Ok (VExt cls) ->
  ext_isinstance (LibraryError raised msg) cls = true ->
  fst (EventsAPiV2Client.post_event VSelf payload w)
    = Raise (AirflowException ("Failed to post event: " +:+ msg)
               (Some (LibraryError raised msg))).
Proof.
  intros Hsession Hattr Hcall Hclause Hinstance.
  rewrite (post_event_calls_session w payload session f Hsession Hattr).
  cbn zeta. rewrite Hcall. unfold on_exception. now rewrite Hclause, Hinstance.
Qed.

Example post_event_wraps_where_clause_resolves_example :
  fst (@EventsAPiV2Client.post_event
         (with_PagerDutyError (Raise (LibraryError "pagerduty.PagerDutyError" "boom")))
         VSelf (VDict []) (with_session (VStr "R0UT1NGKEY") "session"))
  = Raise (AirflowException "Failed to post event: boom"
             (Some (LibraryError "pagerduty.PagerDutyError" "boom"))).
Proof. reflexivity. Qed.

(** C6, the code where the library has no [PagerDutyError]: when the
    library's [post_event] raises its error with message ["boom"], the
    [except] clause reads [pagerduty.PagerDutyError]; the module has no such
    attribute, and [post_event] ends in the [AttributeError] of that read,
    not in an [AirflowException] carrying ["boom"]. *)
Theorem post_event_library_error_is_replaced `{Environment}
    (w : world) (payload : value) (session f raised : string) :
  self_dict w !! "_session" = Some (VExt session) ->
  ext_getattr session "post_event" = Ok (VExt f) ->
  ext_call (calls w) (ExtCall f [payload] []) = Raise (LibraryError raised "boom") ->
  ext_getattr "pagerduty" "PagerDutyError"
    = Raise (AttributeError (VExt "pagerduty") "PagerDutyError") ->
  fst (EventsAPiV2Client.post_event VSelf payload w)
    = Raise (AttributeError (VExt "pagerduty") "PagerDutyError") /\
  is_airflow_exception (fst (EventsAPiV2Client.post_event VSelf payload w)) = false.
Proof.
  intros Hsession Hattr Hcall Hclause.
  rewrite (post_event_calls_session w payload session f Hsession Hattr).
  cbn zeta. rewrite Hcall. cbn [fst].
  rewrite (on_exception_unresolved _ _ _ Hclause). now split.
Qed.

Lemma post_event_library_error_is_replaced_witness :
  self_dict (with_session (VStr "R0UT1NGKEY") "session") !! "_session" = Some (VExt "session") /\
  @ext_getattr (without_PagerDutyError (Raise (LibraryError "pagerduty.Error" "boom")))
     "pagerduty" "PagerDutyError"
    = Raise (AttributeError (VExt "pagerduty") "PagerDutyError") /\
  fst (@EventsAPiV2Client.post_event
         (without_PagerDutyError (Raise (LibraryError "pagerduty.Error" "boom")))
         VSelf (VDict []) (with_session (VStr "R0UT1NGKEY") "session"))
    = Raise (AttributeError (VExt "pagerduty") "PagerDutyError").
Proof.
  repeat (split; [reflexivity |]).
  apply (@post_event_library_error_is_replaced
           (without_PagerDutyError (Raise (LibraryError "pagerduty.Error" "boom")))
           (with_session (VStr "R0UT1NGKEY") "session") (VDict []) "session"
           "session.post_event" "pagerduty.Error");
    reflexivity.
Defined.

(** *** Headers *)



(** *** [ApiClient.request] *)

(** None of the four free names of [request]'s body is a global of the
    module or a builtin. *)
Lemma request_free_names_unbound (w : world) :
  Forall (fun name => load_global ApiClient.module_globals name w = (Raise (NameError name), w))
         ["self"; "params"; "data"; "headers"].
Proof. repeat constructor. Qed.

(** C10: for every [method], [url] and keyword options, [request] raises
    [NameError] at [self], the first name its body reads, before anything
    else happens: no check of the method, no access to the session, no
    call; and however the function is reached (every way of passing
    arguments to it), the call fails and the world stays as it was.  This
    holds in whatever class the function is placed. *)
Theorem request_raises_NameError `{Environment} (ns : list (string * kind))
    (method url : value) (kwargs : list (string * value)) (w : world) :
  ApiClient.request ns method url kwargs w = (Raise (NameError "self"), w) /\
  Forall (fun name => load_global ApiClient.module_globals name w = (Raise (NameError name), w))
         ["self"; "params"; "data"; "headers"] /\
  (forall pos kw, failed (fst (ApiClient.request_def ns pos kw w)) /\
                  snd (ApiClient.request_def ns pos kw w) = w).
Proof.
  split; [reflexivity | split; [apply request_free_names_unbound |]].
  intros pos kw. unfold ApiClient.request_def, def_.
  destruct (bind_args _ pos kw) as [[env extra] | e]; split; exact I || reflexivity.
Qed.



(** X17: The [class] statement of [ApiClient.py] does not complete: the body's
    [log = logging.NOTSET] reads [logging], which the module does not
    import. *)
Lemma class_statement_raises_NameError `{Environment} (w : world) :
  ApiClient.class_statement w = (Raise (NameError "logging"), w).
Proof. reflexivity. Qed.

(** *** No session, ever *)

(** A function whose first parameter is [self], called as a method: the
    arguments either do not fit the signature, or the body runs with the
    instance as [self]. *)
Lemma def_of_method (sg : signature) (rest : list (string * option value))
    (body : list (string * value) -> list (string * value) -> M value)
    (pos : list value) (kw : list (string * value)) (w : world) :
  params sg = ("self", None) :: rest ->
  def_ sg body (VSelf :: pos) kw w = (Raise (TypeError (BadArguments (fname sg))), w) \/
  exists env extra,
    arg env "self" = VSelf /\ def_ sg body (VSelf :: pos) kw w = body env extra w.
Proof.
  intros Hparams. unfold def_, bind_args. rewrite Hparams. cbn [bind_positional].
  destruct (bind_positional rest pos) as [[bound open] |]; [| now left].
  repeat match goal with
         | |- context [if ?c then _ else _] => destruct c; [now left |]
         end.
  destruct (bind_keywords open kw) as [more |]; [| now left].
  right. eexists _, _. split; [| reflexivity]. reflexivity.
Qed.

Section Idle.
Context `{Environment}.

Lemma idle_fresh (w : world) : idle w -> fresh w.
Proof. intros (_ & _ & Hcalls & Hrest). now split. Qed.

Lemma idle_session (w : world) : idle w -> self_dict w !! "_session" = Some VNone.
Proof. now intros (Hsession & _). Qed.

(** The methods that go through [self._session] stop at the attribute
    they read of [None]; that [AttributeError] then meets the [except]
    clause. *)
Lemma acknowledge_event_idle (event_id : value) (w : world) :
  idle w ->
  EventsAPiV2Client.acknowledge_event VSelf event_id w
    = (on_exception "Failed to acknowledge event: "
         (AttributeError VNone "acknowledge_event"), w).
Proof.
  intros Hidle. unfold EventsAPiV2Client.acknowledge_event.
  rewrite try_except_run. py_run.
  rewrite (idle_session w Hidle). reflexivity.
Qed.

Lemma post_event_idle (payload : value) (w : world) :
  idle w ->
  EventsAPiV2Client.post_event VSelf payload w
    = (on_exception "Failed to post event: " (AttributeError VNone "post_event"), w).
Proof.
  intros Hidle. unfold EventsAPiV2Client.post_event.
  rewrite try_except_run. py_run.
  rewrite (idle_session w Hidle). reflexivity.
Qed.

Lemma resolve_event_idle (event_id : value) (w : world) :
  idle w ->
  EventsAPiV2Client.resolve_event VSelf event_id w
    = (on_exception "Failed to resolve event: " (AttributeError VNone "resolve_event"), w).
Proof.
  intros Hidle. unfold EventsAPiV2Client.resolve_event.
  rewrite try_except_run. py_run.
  rewrite (idle_session w Hidle). reflexivity.
Qed.

Lemma send_change_event_idle (payload event_type routing_key : value) (w : world) :
  idle w ->
  EventsAPiV2Client.send_change_event VSelf payload event_type routing_key w
    = (on_exception "Failed to send change event: " (AttributeError VNone "send_event"), w).
Proof.
  intros Hidle. pose proof Hidle as (Hsession & [key Hkey] & _).
  unfold EventsAPiV2Client.send_change_event.
  unfold mbind at 1, M_bind at 1, bind at 1.
  assert (Hkey' : (if is_none routing_key
                   then getattr EventsAPiV2Client.stage0 VSelf "integration_key"
                   else mret routing_key) w
                  = (Ok (if is_none routing_key then key else routing_key), w)).
  { destruct (is_none routing_key); [| reflexivity]. py_run. now rewrite Hkey. }
  rewrite Hkey'. rewrite try_except_run. py_run.
  rewrite Hsession. reflexivity.
Qed.

Lemma prepare_headers_idle (w : world) :
  idle w -> snd (EventsAPiV2Client.prepare_headers VSelf w) = w.
Proof.
  intros (_ & [key Hkey] & _).
  unfold EventsAPiV2Client.prepare_headers. py_run. rewrite Hkey. reflexivity.
Qed.

Lemma send_event_idle (a : EventsAPiV2Client.event_args) (w : world) :
  idle w ->
  EventsAPiV2Client.send_event VSelf a w
    = (Raise (AttributeError VSelf "prepare_payload"), w).
Proof.
  intros (_ & _ & _ & Hrest).
  apply send_event_without_prepare_payload, Hrest; discriminate.
Qed.

(** [__init__] never assigns a session: from any instance without one it
    leaves an instance without one, whether it returns or raises. *)
Lemma init_idle (integration_key conn_id : value) (w : world) :
  fresh w -> idle (snd (EventsAPiV2Client.__init__ VSelf integration_key conn_id w)).
Proof.
  intros (Hcalls & Hrest).
  assert (Hidle : forall key,
             idle (World (<["integration_key" := key]>
                            (<["_session" := VNone]>
                               (<["integration_key" := VNone]> (self_dict w)))) (calls w))).
  { intros key. repeat split; cbn [self_dict calls].
    - now rewrite lookup_insert_ne, lookup_insert_eq.
    - rewrite lookup_insert_eq. now exists key.
    - exact Hcalls.
    - intros name Hs Hk. rewrite !lookup_insert_ne by congruence. now apply Hrest. }
  assert (Hidle0 : idle (World (<["_session" := VNone]>
                                  (<["integration_key" := VNone]> (self_dict w))) (calls w))).
  { repeat split; cbn [self_dict calls].
    - now rewrite lookup_insert_eq.
    - rewrite lookup_insert_ne, lookup_insert_eq by congruence. now exists VNone.
    - exact Hcalls.
    - intros name Hs Hk. rewrite !lookup_insert_ne by congruence. now apply Hrest. }
  unfold EventsAPiV2Client.__init__. py_run.
  destruct (is_none conn_id); cbn.
  - destruct (is_none integration_key) eqn:Hkey; cbn.
    + rewrite lookup_insert_ne, lookup_insert_eq by congruence. cbn. exact Hidle0.
    + rewrite lookup_insert_eq, Hkey. apply Hidle.
  - rewrite !lookup_insert_ne by congruence.
    rewrite (Hrest "get_connection") by discriminate. exact Hidle0.
Qed.

End Idle.

Section Operations.
Context `{Environment}.

(** On an instance that hides none of them, [hook.m(...)] reaches the
    function the class binds to [m]. *)
Lemma invoke_reaches_function (m : method) (pos : list value) (kw : list (string * value))
    (w : world) :
  idle w ->
  EventsAPiV2Client.invoke (method_name m) pos kw w
  = apply_function EventsAPiV2Client.class_ (method_name m) (VSelf :: pos) kw w.
Proof.
  intros (_ & _ & _ & Hrest).
  unfold EventsAPiV2Client.invoke. py_unfold.
  destruct m; cbn [method_name]; cbn -[lookup]; rewrite Hrest by discriminate; reflexivity.
Qed.

(** One call of any method keeps the instance without a session and the
    environment uncalled; the four methods that need the session fail. *)
Lemma invoke_idle (m : method) (pos : list value) (kw : list (string * value)) (w : world) :
  idle w ->
  idle (snd (EventsAPiV2Client.invoke (method_name m) pos kw w)) /\
  (uses_session m = true ->
   failed (fst (EventsAPiV2Client.invoke (method_name m) pos kw w))).
Proof.
  intros Hidle. rewrite (invoke_reaches_function m pos kw w Hidle).
  assert (Hfree : self_dict w !! "send_event" = None).
  { destruct Hidle as (_ & _ & _ & Hrest). apply Hrest; discriminate. }
  unfold apply_function.
  destruct m; cbn [method_name]; cbn -[lookup];
    unfold EventsAPiV2Client.init_def, EventsAPiV2Client.acknowledge_event_def,
      EventsAPiV2Client.post_event_def, EventsAPiV2Client.prepare_headers_def,
      EventsAPiV2Client.resolve_event_def, EventsAPiV2Client.send_change_event_def,
      EventsAPiV2Client.send_event_def, EventsAPiV2Client.submit_event_def,
      EventsAPiV2Client.trigger_event_def;
    match goal with
    | |- context [def_ ?sg ?body (VSelf :: pos) kw w] =>
        destruct (def_of_method sg _ body pos kw w eq_refl)
          as [Hbad | (env & extra & Hself & Hrun)];
        [rewrite Hbad; cbn; split; [exact Hidle | intros _; exact I]
        | rewrite Hrun, Hself; clear Hrun Hself]
    end.
  - split; [apply init_idle, idle_fresh, Hidle | discriminate].
  - rewrite acknowledge_event_idle by exact Hidle.
    split; [exact Hidle | intros _; apply on_exception_failed].
  - rewrite post_event_idle by exact Hidle.
    split; [exact Hidle | intros _; apply on_exception_failed].
  - split; [rewrite prepare_headers_idle by exact Hidle; exact Hidle | discriminate].
  - rewrite resolve_event_idle by exact Hidle.
    split; [exact Hidle | intros _; apply on_exception_failed].
  - rewrite send_change_event_idle by exact Hidle.
    split; [exact Hidle | intros _; apply on_exception_failed].
  - rewrite send_event_idle by exact Hidle. now split.
  - unfold EventsAPiV2Client.submit_event.
    rewrite delegates_to_send_event, send_event_idle by assumption. now split.
  - unfold EventsAPiV2Client.trigger_event.
    rewrite delegates_to_send_event, send_event_idle by assumption. now split.
Qed.

(** Any sequence of calls does. *)
Lemma run_idle (ops : list operation) (w : world) :
  idle w ->
  idle (snd (run ops w)) /\
  Forall2 (fun op r => uses_session (op_method op) = true -> failed r) ops (fst (run ops w)).
Proof.
  revert w. induction ops as [| op rest IH]; intros w Hidle; cbn [run].
  - split; [exact Hidle | constructor].
  - destruct (invoke_idle (op_method op) (op_positional op) (op_keywords op) w Hidle)
      as [Hnext Hfailed].
    destruct (EventsAPiV2Client.invoke _ _ _ w) as [r w1]. cbn [fst snd] in *.
    destruct (IH w1 Hnext) as [Hlast Hall].
    destruct (run rest w1) as [rs w2]. cbn [fst snd] in *.
    split; [exact Hlast | now constructor].
Qed.

(** Construction that returns leaves such an instance. *)
Lemma construct_idle (pos : list value) (kw : list (string * value)) (w0 w1 : world) :
  EventsAPiV2Client.construct pos kw = (Ok w0, w1) -> idle w0.
Proof.
  unfold EventsAPiV2Client.construct, call, apply_function. cbn -[lookup].
  unfold EventsAPiV2Client.init_def.
  match goal with
  | |- context [def_ ?sg ?body (VSelf :: pos) kw ?w] =>
      destruct (def_of_method sg _ body pos kw w eq_refl)
        as [Hbad | (env & extra & Hself & Hrun)];
      [rewrite Hbad; discriminate | rewrite Hrun, Hself; clear Hrun Hself]
  end.
  pose proof (init_idle (arg env "integration_key") (arg env "pagerduty_events_conn_id")
                (World ∅ [])) as Hinit.
  destruct (EventsAPiV2Client.__init__ _ _ _ _) as [[v | e] w]; [| discriminate].
  intros [= <- _]. apply Hinit. split; [reflexivity |]. intros. apply lookup_empty.
Qed.

End Operations.

(** C9: on every successfully constructed [EventsAPiV2Client], after
    every sequence of calls of its methods with any arguments, [_session]
    is still [None] and no call into the environment has been made; and
    every call of [post_event], [acknowledge_event], [resolve_event] or
    [send_change_event] in the sequence failed. *)
Theorem session_stays_None `{Environment}
    (pos : list value) (kw : list (string * value)) (w0 w1 : world) (ops : list operation) :
  EventsAPiV2Client.construct pos kw = (Ok w0, w1) ->
  self_dict (snd (run ops w0)) !! "_session" = Some VNone /\
  calls (snd (run ops w0)) = [] /\
  Forall2 (fun op r => uses_session (op_method op) = true -> failed r)
          ops (fst (run ops w0)).
Proof.
  intros Hconstruct.
  destruct (run_idle ops w0 (construct_idle pos kw w0 w1 Hconstruct))
    as [(Hsession & _ & Hcalls & _) Hfailed].
  auto.
Qed.

Lemma session_stays_None_witness :
  @EventsAPiV2Client.construct bare [VStr "R0UT1NGKEY"] []
    = (Ok (ready (VStr "R0UT1NGKEY")), ready (VStr "R0UT1NGKEY")) /\
  self_dict (snd (@run bare
                    [ Operation PostEvent [VDict [("summary", VStr "disk full")]] [];
                      Operation PrepareHeaders [] [];
                      Operation AcknowledgeEvent [VStr "E1"] [] ]
                    (ready (VStr "R0UT1NGKEY")))) !! "_session" = Some VNone.
Proof.
  split; [reflexivity |].
  apply (@session_stays_None bare [VStr "R0UT1NGKEY"] [] (ready (VStr "R0UT1NGKEY"))
           (ready (VStr "R0UT1NGKEY"))).
  reflexivity.
Defined.

(** X5: on a constructed instance, each of the four session methods,
    called with arguments that fit its signature, raises [AttributeError]
    on [None] inside its [try]; where the module [pagerduty] has no
    [PagerDutyError], what the caller gets is the exception of the [except]
    clause's own read, and the instance is unchanged. *)
Theorem session_methods_raise_the_clause_error `{Environment}
    (key payload event_id : value) (e' : exn) :
  ext_getattr "pagerduty" "PagerDutyError" = Raise e' ->
  EventsAPiV2Client.invoke "post_event" [payload] [] (ready key) = (Raise e', ready key) /\
  EventsAPiV2Client.invoke "acknowledge_event" [event_id] [] (ready key)
    = (Raise e', ready key) /\
  EventsAPiV2Client.invoke "resolve_event" [event_id] [] (ready key)
    = (Raise e', ready key) /\
  EventsAPiV2Client.invoke "send_change_event" [payload] [] (ready key)
    = (Raise e', ready key).
Proof.
  intros Hclause.
  pose proof (ready_idle key) as Hidle.
  assert (Hpost := post_event_idle payload _ Hidle).
  assert (Hack := acknowledge_event_idle event_id _ Hidle).
  assert (Hres := resolve_event_idle event_id _ Hidle).
  assert (Hchange := send_change_event_idle payload (VStr "trigger") VNone _ Hidle).
  rewrite (on_exception_unresolved _ _ _ Hclause) in Hpost.
  rewrite (on_exception_unresolved _ _ _ Hclause) in Hack.
  rewrite (on_exception_unresolved _ _ _ Hclause) in Hres.
  rewrite (on_exception_unresolved _ _ _ Hclause) in Hchange.
  repeat split; assumption.
Qed.

Lemma session_methods_raise_the_clause_error_witness :
  @ext_getattr (without_PagerDutyError (Ok VNone)) "pagerduty" "PagerDutyError"
    = Raise (AttributeError (VExt "pagerduty") "PagerDutyError") /\
  @EventsAPiV2Client.invoke (without_PagerDutyError (Ok VNone)) "post_event"
     [VDict [("summary", VStr "disk full")]] [] (ready (VStr "R0UT1NGKEY"))
  = (Raise (AttributeError (VExt "pagerduty") "PagerDutyError"), ready (VStr "R0UT1NGKEY")).
Proof.
  split; [reflexivity |].
  apply (@session_methods_raise_the_clause_error (without_PagerDutyError (Ok VNone))
           (VStr "R0UT1NGKEY") (VDict [("summary", VStr "disk full")]) VNone).
  reflexivity.
Defined.

(** ** Further properties of [EventsAPiV2Client] *)

(** *** Construction *)

(** What construction from a token and a connection id gives, case by
    case. *)
Lemma construct_cases `{Environment} (integration_key conn_id : value) :
  fst (EventsAPiV2Client.construct [integration_key; conn_id] [])
  = if is_none conn_id
    then if is_none integration_key
         then Raise (AirflowException EventsAPiV2Client.no_token_message None)
         else Ok (ready integration_key)
    else Raise (AttributeError VSelf "get_connection").
Proof.
  unfold EventsAPiV2Client.construct. cbn -[lookup insert].
  unfold EventsAPiV2Client.__init__. py_unfold. cbn -[lookup insert].
  destruct (is_none conn_id) eqn:Hconn; cbn -[lookup insert].
  - destruct (is_none integration_key) eqn:Hkey; cbn -[lookup insert].
    + rewrite lookup_insert_ne, lookup_insert_eq by discriminate. reflexivity.
    + rewrite lookup_insert_eq, Hkey. reflexivity.
  - rewrite !lookup_insert_ne by discriminate. rewrite lookup_empty. reflexivity.
Qed.

(** X2: Construction succeeds exactly when no connection id is given and the
    explicit token is not [None]; the empty string is a token like any
    other.  The instance then holds the token and no session. *)
Theorem construct_succeeds_iff `{Environment} (integration_key conn_id : value) :
  (is_none conn_id = true /\ is_none integration_key = false
   <-> exists w, fst (EventsAPiV2Client.construct [integration_key; conn_id] []) = Ok w) /\
  (forall w, fst (EventsAPiV2Client.construct [integration_key; conn_id] []) = Ok w ->
             w = ready integration_key) /\
  fst (EventsAPiV2Client.construct [VStr ""] []) = Ok (ready (VStr "")).
Proof.
  rewrite construct_cases.
  split; [| split; [| reflexivity]].
  - split.
    + intros [-> ->]. now exists (ready integration_key).
    + intros [w Hw]. destruct (is_none conn_id), (is_none integration_key);
        try discriminate Hw. now split.
  - intros w Hw. destruct (is_none conn_id), (is_none integration_key);
      try discriminate Hw. now injection Hw as <-.
Qed.

(** X3: Construction reads no credential and calls nothing: whatever the
    arguments, and whether it succeeds or not, no call into the environment
    is made, by either class. *)
Theorem construct_calls_nothing `{Environment} (pos : list value) (kw : list (string * value)) :
  calls (snd (EventsAPiV2Client.construct pos kw)) = [] /\
  calls (snd (ApiClient.construct pos kw)) = [].
Proof.
  split; [| now rewrite api_client_construct_raises].
  unfold EventsAPiV2Client.construct, call, apply_function. cbn -[lookup insert].
  unfold EventsAPiV2Client.init_def.
  match goal with
  | |- context [def_ ?sg ?body (VSelf :: pos) kw ?w] =>
      destruct (def_of_method sg _ body pos kw w eq_refl)
        as [Hbad | (env & extra & Hself & Hrun)];
      [rewrite Hbad; reflexivity | rewrite Hrun, Hself; clear Hrun Hself]
  end.
  pose proof (init_idle (arg env "integration_key") (arg env "pagerduty_events_conn_id")
                (World ∅ [])) as Hinit.
  destruct (EventsAPiV2Client.__init__ _ _ _ _) as [[v | e] w]; cbn [fst snd] in *;
    apply Hinit; (split; [reflexivity | intros; apply lookup_empty]).
Qed.

(** X4: [__init__] clears the token before it checks its arguments: run again
    on a constructed instance with arguments it rejects, it raises and
    leaves the instance without its token, and [prepare_headers] then
    formats [None] into the header. *)
Theorem failed_init_clears_token `{Environment} (key : value) (conn_id : string) :
  EventsAPiV2Client.invoke "__init__" [] [] (ready key)
    = (Raise (AirflowException EventsAPiV2Client.no_token_message None), cleared) /\
  EventsAPiV2Client.invoke "__init__" [VNone; VStr conn_id] [] (ready key)
    = (Raise (AttributeError VSelf "get_connection"), cleared) /\
  EventsAPiV2Client.invoke "prepare_headers" [] [] cleared
    = (Ok (token_headers "None"), cleared).
Proof. repeat split. Qed.

(** *** The session methods, given a session *)

Section WithSession.
Context `{Environment}.

(** [acknowledge_event] and [resolve_event] once [self._session] is an
    object of the library: one recorded call with the event id; its value
    is dropped. *)
Lemma acknowledge_event_calls_session (w : world) (event_id : value) (session f : string) :
  self_dict w !! "_session" = Some (VExt session) ->
  ext_getattr session "acknowledge_event" = Ok (VExt f) ->
  EventsAPiV2Client.acknowledge_event VSelf event_id w
  = let c := ExtCall f [event_id] [] in
    let w' := World (self_dict w) (calls w ++ [c]) in
    match ext_call (calls w) c with
    | Ok _ => (Ok VNone, w')
    | Raise e => (on_exception "Failed to acknowledge event: " e, w')
    end.
Proof.
  intros Hsession Hattr. unfold EventsAPiV2Client.acknowledge_event.
  rewrite try_except_run. py_run.
  rewrite Hsession, Hattr. cbn.
  destruct (ext_call (calls w) (ExtCall f [event_id] [])) as [v | e]; reflexivity.
Qed.

Lemma resolve_event_calls_session (w : world) (event_id : value) (session f : string) :
  self_dict w !! "_session" = Some (VExt session) ->
  ext_getattr session "resolve_event" = Ok (VExt f) ->
  EventsAPiV2Client.resolve_event VSelf event_id w
  = let c := ExtCall f [event_id] [] in
    let w' := World (self_dict w) (calls w ++ [c]) in
    match ext_call (calls w) c with
    | Ok _ => (Ok VNone, w')
    | Raise e => (on_exception "Failed to resolve event: " e, w')
    end.
Proof.
  intros Hsession Hattr. unfold EventsAPiV2Client.resolve_event.
  rewrite try_except_run. py_run.
  rewrite Hsession, Hattr. cbn.
  destruct (ext_call (calls w) (ExtCall f [event_id] [])) as [v | e]; reflexivity.
Qed.

(** [send_change_event]: the session's [send_event] is called with the
    payload, the event type and the routing key, the instance's token
    standing in for a routing key of [None]. *)
Lemma send_change_event_calls_session
    (w : world) (payload event_type routing_key key : value) (session f : string) :
  self_dict w !! "_session" = Some (VExt session) ->
  self_dict w !! "integration_key" = Some key ->
  ext_getattr session "send_event" = Ok (VExt f) ->
  EventsAPiV2Client.send_change_event VSelf payload event_type routing_key w
  = let c := ExtCall f [payload; event_type;
                        if is_none routing_key then key else routing_key] [] in
    let w' := World (self_dict w) (calls w ++ [c]) in
    let prefix := "Failed to send change event: " in
    match ext_call (calls w) c with
    | Ok response =>
        match subscript response (VStr "event") with
        | Ok event =>
            match subscript event (VStr "id") with
            | Ok id => (Ok id, w')
            | Raise e => (on_exception prefix e, w')
            end
        | Raise e => (on_exception prefix e, w')
        end
    | Raise e => (on_exception prefix e, w')
    end.
Proof.
  intros Hsession Hkey Hattr. unfold EventsAPiV2Client.send_change_event.
  unfold mbind at 1, M_bind at 1, bind at 1.
  assert (Hkey' : (if is_none routing_key
                   then getattr EventsAPiV2Client.stage0 VSelf "integration_key"
                   else mret routing_key) w
                  = (Ok (if is_none routing_key then key else routing_key), w)).
  { destruct (is_none routing_key); [| reflexivity]. py_run. now rewrite Hkey. }
  rewrite Hkey'. rewrite try_except_run. py_run.
  rewrite Hsession, Hattr. cbn.
  match goal with
  | |- context [ext_call ?h ?c] => destruct (ext_call h c) as [response | e]; cbn
  end; [| reflexivity].
  destruct (subscript response (VStr "event")) as [event | e]; cbn; [| reflexivity].
  destruct (subscript event (VStr "id")) as [id | e]; reflexivity.
Qed.

End WithSession.

(** X6: With a session, [acknowledge_event] and [resolve_event] return [None]
    whatever the library returns, after exactly one call of the session's
    method with the event id; the instance's attributes stay as they
    were. *)
Theorem acknowledge_and_resolve_return_None `{Environment}
    (w : world) (event_id answer : value) (session ack res : string) :
  self_dict w !! "_session" = Some (VExt session) ->
  ext_getattr session "acknowledge_event" = Ok (VExt ack) ->
  ext_getattr session "resolve_event" = Ok (VExt res) ->
  (forall history c, ext_call history c = Ok answer) ->
  EventsAPiV2Client.acknowledge_event VSelf event_id w
    = (Ok VNone, World (self_dict w) (calls w ++ [ExtCall ack [event_id] []])) /\
  EventsAPiV2Client.resolve_event VSelf event_id w
    = (Ok VNone, World (self_dict w) (calls w ++ [ExtCall res [event_id] []])).
Proof.
  intros Hsession Hack Hres Hanswer.
  rewrite (acknowledge_event_calls_session w event_id session ack Hsession Hack).
  rewrite (resolve_event_calls_session w event_id session res Hsession Hres).
  cbn zeta. rewrite !Hanswer. split; reflexivity.
Qed.

Lemma acknowledge_and_resolve_return_None_witness :
  self_dict (with_session (VStr "R0UT1NGKEY") "session") !! "_session" = Some (VExt "session") /\
  @EventsAPiV2Client.acknowledge_event (answering (Ok (VStr "queued"))) VSelf (VStr "E1")
     (with_session (VStr "R0UT1NGKEY") "session")
  = (Ok VNone,
     World (self_dict (with_session (VStr "R0UT1NGKEY") "session"))
           [ExtCall "session.acknowledge_event" [VStr "E1"] []]).
Proof.
  split; [reflexivity |].
  apply (@acknowledge_and_resolve_return_None (answering (Ok (VStr "queued")))
           (with_session (VStr "R0UT1NGKEY") "session") (VStr "E1") (VStr "queued")
           "session" "session.acknowledge_event" "session.resolve_event");
    reflexivity.
Defined.

(** X7: where the module [pagerduty] has no [PagerDutyError], no error
    of the library is ever wrapped: whatever exception the library's call
    raises, its own error type included, each of the four session methods
    ends in the exception of reading [pagerduty.PagerDutyError], and never
    in an [AirflowException] with the library's message. *)
Theorem library_errors_are_replaced `{Environment}
    (w : world) (payload event_id event_type routing_key key : value)
    (session : string) (attribute : string -> string) (e : exn) :
  self_dict w !! "_session" = Some (VExt session) ->
  self_dict w !! "integration_key" = Some key ->
  (forall name, ext_getattr session name = Ok (VExt (attribute name))) ->
  (forall history c, ext_call history c = Raise e) ->
  ext_getattr "pagerduty" "PagerDutyError"
    = Raise (AttributeError (VExt "pagerduty") "PagerDutyError") ->
  fst (EventsAPiV2Client.acknowledge_event VSelf event_id w)
    = Raise (AttributeError (VExt "pagerduty") "PagerDutyError") /\
  fst (EventsAPiV2Client.post_event VSelf payload w)
    = Raise (AttributeError (VExt "pagerduty") "PagerDutyError") /\
  fst (EventsAPiV2Client.resolve_event VSelf event_id w)
    = Raise (AttributeError (VExt "pagerduty") "PagerDutyError") /\
  fst (EventsAPiV2Client.send_change_event VSelf payload event_type routing_key w)
    = Raise (AttributeError (VExt "pagerduty") "PagerDutyError").
Proof.
  intros Hsession Hkey Hattr Hcall Hclause.
  rewrite (acknowledge_event_calls_session w event_id session _ Hsession (Hattr _)).
  rewrite (post_event_calls_session w payload session _ Hsession (Hattr _)).
  rewrite (resolve_event_calls_session w event_id session _ Hsession (Hattr _)).
  rewrite (send_change_event_calls_session w payload event_type routing_key key session _
             Hsession Hkey (Hattr _)).
  cbn zeta. rewrite !Hcall. cbn [fst].
  rewrite !(on_exception_unresolved _ e _ Hclause). repeat split.
Qed.

Lemma library_errors_are_replaced_witness :
  self_dict (with_session (VStr "R0UT1NGKEY") "session") !! "_session" = Some (VExt "session") /\
  fst (@EventsAPiV2Client.resolve_event
         (without_PagerDutyError (Raise (LibraryError "pagerduty.Error" "rate limited")))
         VSelf (VStr "E1") (with_session (VStr "R0UT1NGKEY") "session"))
  = Raise (AttributeError (VExt "pagerduty") "PagerDutyError").
Proof.
  split; [reflexivity |].
  apply (@library_errors_are_replaced
           (without_PagerDutyError (Raise (LibraryError "pagerduty.Error" "rate limited")))
           (with_session (VStr "R0UT1NGKEY") "session") VNone (VStr "E1") VNone VNone
           (VStr "R0UT1NGKEY") "session" (fun name => "session." +:+ name)
           (LibraryError "pagerduty.Error" "rate limited"));
    reflexivity.
Defined.

(** X9: a response without the key ["event"], or whose event has no
    ["id"], makes the subscript in [post_event] and [send_change_event]
    raise [KeyError] inside the [try], after the call to the library has
    been made; where the module [pagerduty] has no [PagerDutyError], the
    caller gets the exception of the [except] clause's read in its
    place. *)
Theorem missing_response_key_after_the_call `{Environment}
    (w : world) (payload event_type routing_key key : value)
    (session : string) (attribute : string -> string) (entries : list (string * value)) :
  self_dict w !! "_session" = Some (VExt session) ->
  self_dict w !! "integration_key" = Some key ->
  (forall name, ext_getattr session name = Ok (VExt (attribute name))) ->
  (forall history c, ext_call history c = Ok (VDict entries)) ->
  ext_getattr "pagerduty" "PagerDutyError"
    = Raise (AttributeError (VExt "pagerduty") "PagerDutyError") ->
  assoc "event" entries = None \/
  (exists fields, assoc "event" entries = Some (VDict fields) /\ assoc "id" fields = None) ->
  fst (EventsAPiV2Client.post_event VSelf payload w)
    = Raise (AttributeError (VExt "pagerduty") "PagerDutyError") /\
  fst (EventsAPiV2Client.send_change_event VSelf payload event_type routing_key w)
    = Raise (AttributeError (VExt "pagerduty") "PagerDutyError") /\
  calls (snd (EventsAPiV2Client.post_event VSelf payload w))
    = calls w ++ [ExtCall (attribute "post_event") [payload] []].
Proof.
  intros Hsession Hkey Hattr Hcall Hclause Hmissing.
  rewrite (post_event_calls_session w payload session _ Hsession (Hattr _)).
  rewrite (send_change_event_calls_session w payload event_type routing_key key session _
             Hsession Hkey (Hattr _)).
  cbn zeta. rewrite !Hcall. cbn [subscript].
  destruct Hmissing as [Hevent | (fields & Hevent & Hid)]; rewrite Hevent; cbn [subscript fst snd];
    rewrite ?Hid; cbn [fst snd calls];
    rewrite !(on_exception_unresolved _ _ _ Hclause); repeat split.
Qed.

Lemma missing_response_key_after_the_call_witness :
  assoc "event" [("status", VStr "success")] = None /\
  calls (snd (@EventsAPiV2Client.post_event
                (without_PagerDutyError (Ok (VDict [("status", VStr "success")])))
                VSelf (VDict []) (with_session (VStr "R0UT1NGKEY") "session")))
  = [ExtCall "session.post_event" [VDict []] []].
Proof.
  split; [reflexivity |].
  apply (@missing_response_key_after_the_call
           (without_PagerDutyError (Ok (VDict [("status", VStr "success")])))
           (with_session (VStr "R0UT1NGKEY") "session") (VDict []) VNone VNone
           (VStr "R0UT1NGKEY") "session" (fun name => "session." +:+ name)
           [("status", VStr "success")]);
    try reflexivity.
  now left.
Defined.

(** X10: [send_change_event] hands the library the payload, the event type and
    a routing key: the caller's, or the instance's token when the caller
    gives none or gives [None]; called with the payload alone, the event
    type is ["trigger"].  The call is made whatever it then returns. *)
Theorem send_change_event_routing_key `{Environment}
    (w : world) (payload event_type routing_key key : value) (session f : string) :
  self_dict w !! "_session" = Some (VExt session) ->
  self_dict w !! "integration_key" = Some key ->
  self_dict w !! "send_change_event" = None ->
  ext_getattr session "send_event" = Ok (VExt f) ->
  calls (snd (EventsAPiV2Client.send_change_event VSelf payload event_type routing_key w))
    = calls w ++ [ExtCall f [payload; event_type;
                             if is_none routing_key then key else routing_key] []] /\
  calls (snd (EventsAPiV2Client.invoke "send_change_event" [payload] [] w))
    = calls w ++ [ExtCall f [payload; VStr "trigger"; key] []].
Proof.
  intros Hsession Hkey Hfree Hattr.
  assert (Hcalls : forall event_type routing_key,
             calls (snd (EventsAPiV2Client.send_change_event VSelf payload event_type
                           routing_key w))
             = calls w ++ [ExtCall f [payload; event_type;
                                     if is_none routing_key then key else routing_key] []]).
  { intros et rk.
    rewrite (send_change_event_calls_session w payload et rk key session f
               Hsession Hkey Hattr).
    cbn zeta.
    destruct (ext_call _ _) as [response | e]; [| reflexivity].
    destruct (subscript response _) as [event | e]; [| reflexivity].
    destruct (subscript event _); reflexivity. }
  split; [apply Hcalls |].
  unfold EventsAPiV2Client.invoke. py_unfold. cbn -[lookup]. rewrite Hfree.
  unfold EventsAPiV2Client.send_change_event_def, def_. cbn -[lookup].
  apply (Hcalls (VStr "trigger") VNone).
Qed.

Lemma send_change_event_routing_key_witness :
  self_dict (with_session (VStr "R0UT1NGKEY") "session") !! "_session" = Some (VExt "session") /\
  calls (snd (@EventsAPiV2Client.invoke (answering (Ok created_E1)) "send_change_event"
                [VDict [("summary", VStr "deploy")]] []
                (with_session (VStr "R0UT1NGKEY") "session")))
  = [ExtCall "session.send_event"
       [VDict [("summary", VStr "deploy")]; VStr "trigger"; VStr "R0UT1NGKEY"] []].
Proof.
  split; [reflexivity |].
  apply (@send_change_event_routing_key (answering (Ok created_E1))
           (with_session (VStr "R0UT1NGKEY") "session")
           (VDict [("summary", VStr "deploy")]) VNone VNone (VStr "R0UT1NGKEY")
           "session" "session.send_event");
    reflexivity.
Defined.

(** *** [send_event] on any instance *)

(** X11: Handing the instance a session does not help [send_event]: on every
    instance without attributes of its own named [prepare_payload] and
    [send_event], with a session or without, [send_event], [submit_event]
    and [trigger_event] raise [AttributeError] for [prepare_payload] and
    leave the instance and the environment as they were. *)
Theorem event_methods_fail_on_any_instance `{Environment}
    (a : EventsAPiV2Client.event_args) (w : world) :
  self_dict w !! "prepare_payload" = None ->
  self_dict w !! "send_event" = None ->
  EventsAPiV2Client.send_event VSelf a w
    = (Raise (AttributeError VSelf "prepare_payload"), w) /\
  EventsAPiV2Client.submit_event VSelf a w
    = (Raise (AttributeError VSelf "prepare_payload"), w) /\
  EventsAPiV2Client.trigger_event VSelf a w
    = (Raise (AttributeError VSelf "prepare_payload"), w).
Proof.
  intros Hpayload Hsend.
  unfold EventsAPiV2Client.submit_event, EventsAPiV2Client.trigger_event.
  rewrite delegates_to_send_event by exact Hsend.
  rewrite send_event_without_prepare_payload by exact Hpayload.
  repeat split.
Qed.

Lemma event_methods_fail_on_any_instance_witness :
  self_dict (with_session (VStr "R0UT1NGKEY") "session") !! "prepare_payload" = None /\
  @EventsAPiV2Client.trigger_event (answering (Ok created_E1)) VSelf
     (EventsAPiV2Client.EventArgs (VStr "disk full") (VStr "critical") (VStr "db-1")
        VNone VNone VNone VNone (VStr "trigger") VNone VNone VNone)
     (with_session (VStr "R0UT1NGKEY") "session")
  = (Raise (AttributeError VSelf "prepare_payload"),
     with_session (VStr "R0UT1NGKEY") "session").
Proof.
  split; [reflexivity |].
  apply (@event_methods_fail_on_any_instance (answering (Ok created_E1))); reflexivity.
Defined.
